(** * Google Credentials JSON model (oauth2client/google_credentials_json.py)

    A shallow embedding of [GoogleCredentialsJson]: the builder
    [serialize_data], the two parsers [load] and [loads], and the private
    helpers they share.  Python dictionaries are finite maps from strings to
    Python values, exceptions are an error monad, and the identity test [is]
    of [serialize_data] is kept apart from the equality test [==] of
    [_check_credential_type]. *)

From stdpp Require Import gmap strings list fin_maps.
From Stdlib Require Import Ascii SpecFloat.

#[local] Set Warnings "-register-all".
#[local] Open Scope string_scope.

(** ** Python values *)

(** The values a decoded JSON text is made of, which are also the values a
    caller hands to [serialize_data]: [None], booleans, integers, floats,
    strings, lists and dictionaries with string keys. *)
Inductive pyval : Type :=
  | VNone
  | VBool (b : bool)
  | VInt (z : Z)
  | VFloat (f : spec_float)
  | VStr (s : string)
  | VList (l : list pyval)
  | VDict (d : gmap string pyval).

(** The exceptions that can leave the module. *)
Inductive exn : Type :=
  | InvalidCredentialModelError (msg : string)
  | KeyError (key : string)
  | TypeError
  | AttributeError
  | UnboundLocalError
  | ValueError (msg : string).

(** A call either returns a value or raises. *)
Inductive result (A : Type) : Type :=
  | Return (a : A)
  | Raise (e : exn).
Arguments Return {A} a.
Arguments Raise {A} e.

#[global] Instance result_ret : MRet result := fun A a => Return a.
#[global] Instance result_bind : MBind result := fun A B f m =>
  match m with
  | Return a => f a
  | Raise e => Raise e
  end.

(** [bool(v)]: the truth value of a Python value in an [if]. *)
Definition truthy (v : pyval) : bool :=
  match v with
  | VNone => false
  | VBool b => b
  | VInt z => negb (Z.eqb z 0)
  | VFloat (S754_zero _) => false
  | VFloat _ => true
  | VStr s => match s with EmptyString => false | String _ _ => true end
  | VList l => match l with [] => false | _ => true end
  | VDict d => negb (bool_decide (d = ∅))
  end.

(** [v == s] for a string constant [s]. *)
Definition py_eq_str (v : pyval) (s : string) : bool :=
  match v with
  | VStr t => bool_decide (t = s)
  | _ => false
  end.

(** [p in s] on two strings: [p] occurs in [s]. *)
Fixpoint is_substring (p s : string) : bool :=
  if String.prefix p s then true
  else match s with
       | EmptyString => false
       | String _ s' => is_substring p s'
       end.

(** [key in obj]. *)
Definition py_contains (key : string) (obj : pyval) : result bool :=
  match obj with
  | VDict d => Return (bool_decide (key ∈ dom d))
  | VStr s => Return (is_substring key s)
  | VList l => Return (existsb (fun x => py_eq_str x key) l)
  | _ => Raise TypeError
  end.

(** [obj[key] = v], on the object itself. *)
Definition py_setitem (obj : pyval) (key : string) (v : pyval) : result pyval :=
  match obj with
  | VDict d => Return (VDict (<[key := v]> d))
  | _ => Raise TypeError
  end.

(** [obj[key]]. *)
Definition py_getitem (obj : pyval) (key : string) : result pyval :=
  match obj with
  | VDict d => match d !! key with
               | Some v => Return v
               | None => Raise (KeyError key)
               end
  | _ => Raise TypeError
  end.

(** [obj.keys()]. *)
Definition py_keys (obj : pyval) : result (gset string) :=
  match obj with
  | VDict d => Return (dom d)
  | _ => Raise AttributeError
  end.

(** ** Class constants *)

Definition TYPE_SERVICE_ACCOUNT : string := "service_account".
Definition TYPE_AUTHORIZED_USER : string := "authorized_user".

Definition TYPE_FIELD_NAME : string := "type".
Definition CLIENT_ID_FIELD_NAME : string := "client_id".
Definition CLIENT_EMAIL_FIELD_NAME : string := "client_email".
Definition PRIVATE_KEY_ID_FIELD_NAME : string := "private_key_id".
Definition PRIVATE_KEY_FIELD_NAME : string := "private_key".
Definition CLIENT_SECRET_FIELD_NAME : string := "client_secret".
Definition REFRESH_TOKEN_FIELD_NAME : string := "refresh_token".

Definition TOKEN_URI_FIELD_NAME : string := "token_uri".
Definition REVOKE_URI_FIELD_NAME : string := "revoke_uri".

Definition _REQUIRED_SERVICE_ACCOUNT_FIELDS : gset string :=
  list_to_set
    [TYPE_FIELD_NAME; CLIENT_ID_FIELD_NAME; CLIENT_EMAIL_FIELD_NAME;
     PRIVATE_KEY_ID_FIELD_NAME; PRIVATE_KEY_FIELD_NAME].
Definition _REQUIRED_AUTHORIZED_USER_FIELDS : gset string :=
  list_to_set
    [TYPE_FIELD_NAME; CLIENT_ID_FIELD_NAME; CLIENT_SECRET_FIELD_NAME;
     REFRESH_TOKEN_FIELD_NAME].

(** ** Object identity of the [credential_type] argument

    [serialize_data] tests its argument with [is] against the two class
    attributes.  An argument is therefore either one of these two objects (a
    caller that passes the class attribute, or a literal that CPython interns
    to the same object), or any other object, of which only the value
    matters: a string built or read at run time is such an object even when
    its characters are those of a class attribute. *)
Inductive pyref : Type :=
  | RefTypeServiceAccount
  | RefTypeAuthorizedUser
  | RefOther (v : pyval).

Definition deref (r : pyref) : pyval :=
  match r with
  | RefTypeServiceAccount => VStr TYPE_SERVICE_ACCOUNT
  | RefTypeAuthorizedUser => VStr TYPE_AUTHORIZED_USER
  | RefOther v => v
  end.

(** [r is cls.TYPE_SERVICE_ACCOUNT] and [r is cls.TYPE_AUTHORIZED_USER]. *)
Definition is_TYPE_SERVICE_ACCOUNT (r : pyref) : bool :=
  match r with RefTypeServiceAccount => true | _ => false end.
Definition is_TYPE_AUTHORIZED_USER (r : pyref) : bool :=
  match r with RefTypeAuthorizedUser => true | _ => false end.

(** The keyword arguments of [serialize_data]; [None] is an argument the
    caller did not pass, which then takes the default of the signature. *)
Record kwargs : Type := Kwargs {
  kw_credential_type : option pyref;
  kw_client_id : option pyval;
  kw_client_email : option pyval;
  kw_client_secret : option pyval;
  kw_private_key : option pyval;
  kw_private_key_id : option pyval;
  kw_refresh_token : option pyval;
  kw_token_uri : option pyval;
  kw_revoke_uri : option pyval;
  kw_include_optional_fields : option pyval
}.

(** A call that passes [credential_type] and then [args] by position: the
    values are bound to the parameters in the order of the signature, the
    remaining parameters take their defaults, and more values than
    parameters is a [TypeError]. *)
Definition positional (credential_type : pyref) (args : list pyval)
    : result kwargs :=
  if decide (List.length args ≤ 9)%nat
  then Return (Kwargs (Some credential_type)
                      (args !! 0%nat) (args !! 1%nat) (args !! 2%nat)
                      (args !! 3%nat) (args !! 4%nat) (args !! 5%nat)
                      (args !! 6%nat) (args !! 7%nat) (args !! 8%nat))
  else Raise TypeError.

(** ** Messages *)

Definition unknown_type_message : string :=
  "'type' field should be defined (and have one of the '" +:+
  TYPE_AUTHORIZED_USER +:+ "' or '" +:+ TYPE_SERVICE_ACCOUNT +:+
  "' values)".

Definition missing_fields_prefix : string :=
  "The following field(s) must be defined: ".

(** ** Sample values

    The two endpoint constants as oauth2client releases define them; they
    are used to run the methods on concrete inputs. *)
Module Sample.
Definition GOOGLE_TOKEN_URI : string :=
  "https://accounts.google.com/o/oauth2/token".
Definition GOOGLE_REVOKE_URI : string :=
  "https://accounts.google.com/o/oauth2/revoke".
End Sample.

(** ** A reference JSON decoder

    A decoder for the JSON texts used to exercise [load] and [loads] on
    concrete inputs: objects, arrays, strings with the one-letter escapes,
    integers, [true], [false] and [null].  As in Python, the last of several
    equal keys of an object wins. *)
Module MiniJson.

Definition dquote : Ascii.ascii := Ascii.ascii_of_nat 34.
Definition backslash : Ascii.ascii := Ascii.ascii_of_nat 92.

Definition is_ws (c : Ascii.ascii) : bool :=
  let n := Ascii.nat_of_ascii c in
  Nat.eqb n 32 || Nat.eqb n 9 || Nat.eqb n 10 || Nat.eqb n 13.

Fixpoint skip_ws (s : string) : string :=
  match s with
  | String c s' => if is_ws c then skip_ws s' else s
  | EmptyString => s
  end.

Definition unescape (c : Ascii.ascii) : option Ascii.ascii :=
  let n := Ascii.nat_of_ascii c in
  if Nat.eqb n 34 then Some c
  else if Nat.eqb n 92 then Some c
  else if Nat.eqb n 47 then Some c
  else if Nat.eqb n 98 then Some (Ascii.ascii_of_nat 8)
  else if Nat.eqb n 102 then Some (Ascii.ascii_of_nat 12)
  else if Nat.eqb n 110 then Some (Ascii.ascii_of_nat 10)
  else if Nat.eqb n 114 then Some (Ascii.ascii_of_nat 13)
  else if Nat.eqb n 116 then Some (Ascii.ascii_of_nat 9)
  else None.

(** The characters after an opening quote, up to the closing one. *)
Fixpoint string_body (s : string) : option (string * string) :=
  match s with
  | EmptyString => None
  | String c rest =>
    if Ascii.eqb c dquote then Some (EmptyString, rest)
    else if Ascii.eqb c backslash then
      match rest with
      | EmptyString => None
      | String e rest' =>
        match unescape e, string_body rest' with
        | Some c', Some (body, tl) => Some (String c' body, tl)
        | _, _ => None
        end
      end
    else
      match string_body rest with
      | Some (body, tl) => Some (String c body, tl)
      | None => None
      end
  end.

Definition digit (c : Ascii.ascii) : option Z :=
  let n := Ascii.nat_of_ascii c in
  if Nat.leb 48 n && Nat.leb n 57 then Some (Z.of_nat (n - 48)) else None.

Fixpoint digits (acc : Z) (s : string) : Z * string :=
  match s with
  | String c s' =>
    match digit c with
    | Some k => digits (10 * acc + k) s'
    | None => (acc, s)
    end
  | EmptyString => (acc, s)
  end.

Definition number (s : string) : option (pyval * string) :=
  match s with
  | String c s' =>
    if Ascii.eqb c "-"%char then
      match s' with
      | String c' _ =>
        match digit c' with
        | Some _ => let '(n, tl) := digits 0 s' in Some (VInt (- n), tl)
        | None => None
        end
      | EmptyString => None
      end
    else
      match digit c with
      | Some _ => let '(n, tl) := digits 0 s in Some (VInt n, tl)
      | None => None
      end
  | EmptyString => None
  end.

Definition keyword (k : string) (v : pyval) (s : string)
    : option (pyval * string) :=
  if String.prefix k s
  then Some (v, String.substring (String.length k)
                                 (String.length s - String.length k) s)
  else None.

(** After a value of an object or array: the separator, or the closing
    bracket [close]. *)
Inductive after : Type := More (s : string) | Closed (s : string) | Bad.

Definition separator (close : Ascii.ascii) (s : string) : after :=
  match skip_ws s with
  | String c tl =>
    if Ascii.eqb c ","%char then More tl
    else if Ascii.eqb c close then Closed tl
    else Bad
  | EmptyString => Bad
  end.

(** An object or array with nothing inside: the text after [close]. *)
Definition closing (close : Ascii.ascii) (s : string) : option string :=
  match skip_ws s with
  | String c tl => if Ascii.eqb c close then Some tl else None
  | EmptyString => None
  end.

(** The key of a member and the text after its colon. *)
Definition member_key (s : string) : option (string * string) :=
  match skip_ws s with
  | String c rest =>
    if Ascii.eqb c dquote then
      match string_body rest with
      | Some (key, tl) =>
        match skip_ws tl with
        | String c' tl' =>
          if Ascii.eqb c' ":"%char then Some (key, tl') else None
        | EmptyString => None
        end
      | None => None
      end
    else None
  | EmptyString => None
  end.

Fixpoint value (fuel : nat) (s : string) : option (pyval * string) :=
  match fuel with
  | O => None
  | S fuel =>
    match skip_ws s with
    | EmptyString => None
    | String c rest =>
      if Ascii.eqb c "{"%char then
        match closing "}"%char rest with
        | Some tl => Some (VDict ∅, tl)
        | None => members fuel ∅ rest
        end
      else if Ascii.eqb c "["%char then
        match closing "]"%char rest with
        | Some tl => Some (VList [], tl)
        | None => items fuel [] rest
        end
      else if Ascii.eqb c dquote then
        match string_body rest with
        | Some (body, tl) => Some (VStr body, tl)
        | None => None
        end
      else if Ascii.eqb c "n"%char then keyword "null" VNone (String c rest)
      else if Ascii.eqb c "t"%char
      then keyword "true" (VBool true) (String c rest)
      else if Ascii.eqb c "f"%char
      then keyword "false" (VBool false) (String c rest)
      else number (String c rest)
    end
  end
with members (fuel : nat) (acc : gmap string pyval) (s : string)
    : option (pyval * string) :=
  match fuel with
  | O => None
  | S fuel =>
    match member_key s with
    | Some (key, tl) =>
      match value fuel tl with
      | Some (v, tl) =>
        match separator "}"%char tl with
        | More tl => members fuel (<[key := v]> acc) tl
        | Closed tl => Some (VDict (<[key := v]> acc), tl)
        | Bad => None
        end
      | None => None
      end
    | None => None
    end
  end
with items (fuel : nat) (acc : list pyval) (s : string)
    : option (pyval * string) :=
  match fuel with
  | O => None
  | S fuel =>
    match value fuel s with
    | Some (v, tl) =>
      match separator "]"%char tl with
      | More tl => items fuel (acc ++ [v]) tl
      | Closed tl => Some (VList (acc ++ [v]), tl)
      | Bad => None
      end
    | None => None
    end
  end.

Definition loads (s : string) : result pyval :=
  match value (S (String.length s)) s with
  | Some (v, tl) =>
    match skip_ws tl with
    | EmptyString => Return v
    | String _ _ => Raise (ValueError "Extra data")
    end
  | None => Raise (ValueError "No JSON object could be decoded")
  end.

(** A JSON text written with apostrophes in place of double quotes. *)
Fixpoint text (s : string) : string :=
  match s with
  | EmptyString => EmptyString
  | String c s' =>
    String (if Ascii.eqb c "'"%char then dquote else c) (text s')
  end.

End MiniJson.

Module GoogleCredentialsJson.
Section Methods.

(** [oauth2client.GOOGLE_TOKEN_URI] and [oauth2client.GOOGLE_REVOKE_URI],
    two string constants of the package's [__init__]. *)
Variables GOOGLE_TOKEN_URI GOOGLE_REVOKE_URI : string.

(** [json.loads] of the Python library: a text either decodes to a value
    or raises. *)
Variable json_loads : string → result pyval.

(** The order in which a Python set of strings is iterated: some
    enumeration of its elements, each once. *)
Variable set_iter : gset string → list string.
Hypothesis set_iter_perm : ∀ X : gset string, set_iter X ≡ₚ elements X.

Definition _raise_exception_for_missing_fields {A}
    (missing_fields : gset string) : result A :=
  Raise (InvalidCredentialModelError
           (missing_fields_prefix +:+
            String.concat ", " (set_iter missing_fields))).

Definition _raise_exception_for_unknown_type {A} : result A :=
  Raise (InvalidCredentialModelError unknown_type_message).

Definition _check_credential_type (credential_type : pyval) : result unit :=
  if negb (py_eq_str credential_type TYPE_SERVICE_ACCOUNT ||
           py_eq_str credential_type TYPE_AUTHORIZED_USER)
  then _raise_exception_for_unknown_type
  else Return ().

(** [missing_fields] is a local that only the two [if]s bind; [None] is
    the unbound local. *)
Definition _validate_credential_object (credential_object : pyval)
    : result pyval :=
  match credential_object with
  | VNone => Raise (InvalidCredentialModelError "Empty credential object.")
  | _ =>
    credential_type ← py_getitem credential_object TYPE_FIELD_NAME;
    _ ← _check_credential_type credential_type;
    let missing_fields : option (gset string) := None in
    missing_fields ←
      (if py_eq_str credential_type TYPE_AUTHORIZED_USER
       then keys ← py_keys credential_object;
            Return (Some (_REQUIRED_AUTHORIZED_USER_FIELDS ∖ keys))
       else Return missing_fields);
    missing_fields ←
      (if py_eq_str credential_type TYPE_SERVICE_ACCOUNT
       then keys ← py_keys credential_object;
            Return (Some (_REQUIRED_SERVICE_ACCOUNT_FIELDS ∖ keys))
       else Return missing_fields);
    match missing_fields with
    | None => Raise UnboundLocalError
    | Some missing_fields =>
      if negb (bool_decide (missing_fields = ∅))
      then _raise_exception_for_missing_fields missing_fields
      else Return credential_object
    end
  end.

Definition _set_optional_fields (obj token_uri revoke_uri : pyval)
    : result pyval :=
  present ← py_contains TOKEN_URI_FIELD_NAME obj;
  obj ← (if negb present
         then py_setitem obj TOKEN_URI_FIELD_NAME token_uri
         else Return obj);
  present ← py_contains REVOKE_URI_FIELD_NAME obj;
  obj ← (if negb present
         then py_setitem obj REVOKE_URI_FIELD_NAME revoke_uri
         else Return obj);
  Return obj.

Definition serialize_data (kw : kwargs) : result pyval :=
  let credential_type := default (RefOther VNone) (kw_credential_type kw) in
  let client_id := default VNone (kw_client_id kw) in
  let client_email := default VNone (kw_client_email kw) in
  let client_secret := default VNone (kw_client_secret kw) in
  let private_key := default VNone (kw_private_key kw) in
  let private_key_id := default VNone (kw_private_key_id kw) in
  let refresh_token := default VNone (kw_refresh_token kw) in
  let token_uri := default (VStr GOOGLE_TOKEN_URI) (kw_token_uri kw) in
  let revoke_uri := default (VStr GOOGLE_REVOKE_URI) (kw_revoke_uri kw) in
  let include_optional_fields :=
    default (VBool false) (kw_include_optional_fields kw) in
  let credential_object : gmap string pyval := ∅ in
  if is_TYPE_SERVICE_ACCOUNT credential_type then
    let credential_object :=
      <[TYPE_FIELD_NAME := VStr TYPE_SERVICE_ACCOUNT]> credential_object in
    let credential_object :=
      <[CLIENT_ID_FIELD_NAME := client_id]> credential_object in
    let credential_object :=
      <[CLIENT_EMAIL_FIELD_NAME := client_email]> credential_object in
    let credential_object :=
      <[PRIVATE_KEY_ID_FIELD_NAME := private_key_id]> credential_object in
    let credential_object :=
      <[PRIVATE_KEY_FIELD_NAME := private_key]> credential_object in
    credential_object ←
      (if truthy include_optional_fields
       then _set_optional_fields (VDict credential_object)
                                 token_uri revoke_uri
       else Return (VDict credential_object));
    _validate_credential_object credential_object
  else if is_TYPE_AUTHORIZED_USER credential_type then
    let credential_object :=
      <[TYPE_FIELD_NAME := VStr TYPE_AUTHORIZED_USER]> credential_object in
    let credential_object :=
      <[CLIENT_ID_FIELD_NAME := client_id]> credential_object in
    let credential_object :=
      <[CLIENT_SECRET_FIELD_NAME := client_secret]> credential_object in
    let credential_object :=
      <[REFRESH_TOKEN_FIELD_NAME := refresh_token]> credential_object in
    credential_object ←
      (if truthy include_optional_fields
       then _set_optional_fields (VDict credential_object)
                                 token_uri revoke_uri
       else Return (VDict credential_object));
    _validate_credential_object credential_object
  else
    (* raise an error if no valid credential_type provided *)
    _ ← _check_credential_type (deref credential_type);
    Return VNone.

(** [fp] is the text the stream yields: [json.load(fp)] decodes
    [fp.read()]. *)
Definition load (fp : string) : result pyval :=
  obj ← json_loads fp;
  obj ← _set_optional_fields obj (VStr GOOGLE_TOKEN_URI)
                             (VStr GOOGLE_REVOKE_URI);
  _validate_credential_object obj.

Definition loads (s : string) : result pyval :=
  obj ← json_loads s;
  obj ← _set_optional_fields obj (VStr GOOGLE_TOKEN_URI)
                             (VStr GOOGLE_REVOKE_URI);
  _validate_credential_object obj.

(** ** Strings: occurrence of a name in a joined message *)

Lemma append_cons (c : ascii) (s t : string) :
  String c s +:+ t = String c (s +:+ t).
Proof using Type. reflexivity. Qed.

Lemma append_assoc (s t u : string) : (s +:+ t) +:+ u = s +:+ t +:+ u.
Proof using Type.
  induction s as [|c s IH]; [done|]. by rewrite !append_cons, IH.
Qed.

Lemma append_nil_r (s : string) : s +:+ EmptyString = s.
Proof using Type.
  induction s as [|c s IH]; [done|]. by rewrite append_cons, IH.
Qed.

Lemma prefix_append (p s : string) : String.prefix p (p +:+ s) = true.
Proof using Type.
  induction p as [|c p IH]; [by destruct s|].
  rewrite append_cons. simpl. by destruct (ascii_dec c c).
Qed.

Lemma is_substring_prefix (p s : string) :
  String.prefix p s = true → is_substring p s = true.
Proof using Type. intros H. destruct s; cbn [is_substring]; by rewrite H. Qed.

Lemma is_substring_append (a p b : string) :
  is_substring p (a +:+ p +:+ b) = true.
Proof using Type.
  induction a as [|c a IH].
  - change (EmptyString +:+ p +:+ b) with (p +:+ b).
    apply is_substring_prefix, prefix_append.
  - rewrite append_cons. cbn [is_substring]. rewrite IH.
    by destruct (String.prefix _ _).
Qed.

(** Every string joined by [sep.join(l)] occurs in the result. *)
Lemma concat_elem (sep f : string) (l : list string) :
  f ∈ l → ∃ a b, String.concat sep l = a +:+ f +:+ b.
Proof using Type.
  induction l as [|x l IH]; [by intros ?%elem_of_nil|].
  intros [->|Hf]%elem_of_cons.
  - exists EmptyString. destruct l as [|y l].
    + exists EmptyString. simpl. by rewrite append_nil_r.
    + by exists (sep +:+ String.concat sep (y :: l)).
  - destruct (IH Hf) as (a & b & Hab). destruct l as [|y l].
    + by apply elem_of_nil in Hf.
    + exists (x +:+ sep +:+ a), b.
      change (String.concat sep (x :: y :: l))
        with (x +:+ sep +:+ String.concat sep (y :: l)).
      by rewrite Hab, !append_assoc.
Qed.

Lemma is_substring_concat (pre sep f : string) (l : list string) :
  f ∈ l → is_substring f (pre +:+ String.concat sep l) = true.
Proof using Type.
  intros (a & b & ->)%(concat_elem sep).
  rewrite <- append_assoc. apply is_substring_append.
Qed.

#[local] Arguments _validate_credential_object : simpl never.
#[local] Arguments _set_optional_fields : simpl never.

(** ** The helpers on a dictionary *)

Lemma py_eq_str_true (v : pyval) (s : string) :
  py_eq_str v s = true ↔ v = VStr s.
Proof using Type.
  destruct v; simpl; try (split; [discriminate | intros [=]]).
  rewrite bool_decide_eq_true. split; [intros -> | intros [= ->]]; done.
Qed.

(** One [if key not in obj: obj[key] = v] on a dictionary is a union
    with a singleton, the dictionary's own entries winning. *)
Lemma set_if_absent_union (d : gmap string pyval) (k : string) (v : pyval) :
  (if bool_decide (k ∈ dom d) then d else <[k := v]> d) = d ∪ {[k := v]}.
Proof using Type.
  apply map_eq. intros j. case_bool_decide as Hk.
  - apply elem_of_dom in Hk as [x Hx]. rewrite lookup_union.
    destruct (decide (j = k)) as [->|Hne].
    + by rewrite Hx, lookup_singleton_eq.
    + rewrite lookup_singleton_ne by done. by destruct (d !! j).
  - apply not_elem_of_dom in Hk. rewrite lookup_union.
    destruct (decide (j = k)) as [->|Hne].
    + by rewrite lookup_insert_eq, Hk, lookup_singleton_eq.
    + rewrite lookup_insert_ne, lookup_singleton_ne by done.
      by destruct (d !! j).
Qed.

Lemma set_if_absent_step (d : gmap string pyval) (k : string) (v : pyval) :
  (if negb (bool_decide (k ∈ dom d))
   then Return (VDict (<[k := v]> d))
   else Return (VDict d)) = Return (VDict (d ∪ {[k := v]})).
Proof using Type. rewrite <- set_if_absent_union. by case_bool_decide. Qed.

(** Nothing of [X] is left once a superset of [X] is taken away. *)
Lemma difference_union_absorb (X Y E : gset string) :
  X ⊆ Y → X ∖ (Y ∪ E) = ∅.
Proof using Type.
  intros Hsub. apply set_eq. intros x.
  rewrite elem_of_difference, elem_of_union, elem_of_empty.
  split; [|done]. intros [Hx Hn]. apply Hn. left. by apply Hsub.
Qed.

(** A union adds nothing when the left map has all the keys. *)
Lemma union_absorb (d x : gmap string pyval) : dom x ⊆ dom d → d ∪ x = d.
Proof using Type.
  intros Hsub. apply map_eq. intros k. rewrite lookup_union.
  destruct (d !! k) as [v|] eqn:Hd; [by destruct (x !! k)|].
  destruct (x !! k) as [w|] eqn:Hx; [|done].
  assert (Hk : k ∈ dom d) by (apply Hsub, elem_of_dom; eauto).
  apply elem_of_dom in Hk as [v Hv]. congruence.
Qed.

(** Back-filling a dictionary keeps every key it has and adds the two URI
    keys where they are missing: a left-biased union with the defaults. *)
Lemma set_optional_fields_dict (d : gmap string pyval) (tu ru : pyval) :
  _set_optional_fields (VDict d) tu ru =
  Return (VDict (d ∪ <[TOKEN_URI_FIELD_NAME := tu]>
                      {[REVOKE_URI_FIELD_NAME := ru]})).
Proof using Type.
  unfold _set_optional_fields. simpl.
  rewrite set_if_absent_step. simpl.
  rewrite set_if_absent_step. simpl.
  by rewrite <- (assoc_L (∪)), <- insert_union_singleton_l.
Qed.

(** Validation of a dictionary, by the value of its [type] key. *)
Lemma validate_no_type (d : gmap string pyval) :
  d !! TYPE_FIELD_NAME = None →
  _validate_credential_object (VDict d) = Raise (KeyError TYPE_FIELD_NAME).
Proof using Type.
  intros H. unfold _validate_credential_object. simpl. by rewrite H.
Qed.

Lemma validate_unknown_type (d : gmap string pyval) (t : pyval) :
  d !! TYPE_FIELD_NAME = Some t →
  py_eq_str t TYPE_SERVICE_ACCOUNT = false →
  py_eq_str t TYPE_AUTHORIZED_USER = false →
  _validate_credential_object (VDict d) =
  Raise (InvalidCredentialModelError unknown_type_message).
Proof using Type.
  intros H Hs Ha. unfold _validate_credential_object. simpl. rewrite H. simpl.
  unfold _check_credential_type. by rewrite Hs, Ha.
Qed.

Lemma validate_service_account (d : gmap string pyval) :
  d !! TYPE_FIELD_NAME = Some (VStr TYPE_SERVICE_ACCOUNT) →
  _validate_credential_object (VDict d) =
  if bool_decide (_REQUIRED_SERVICE_ACCOUNT_FIELDS ∖ dom d = ∅)
  then Return (VDict d)
  else _raise_exception_for_missing_fields
         (_REQUIRED_SERVICE_ACCOUNT_FIELDS ∖ dom d).
Proof using Type.
  intros H. unfold _validate_credential_object. simpl. rewrite H. simpl.
  by case_bool_decide.
Qed.

Lemma validate_authorized_user (d : gmap string pyval) :
  d !! TYPE_FIELD_NAME = Some (VStr TYPE_AUTHORIZED_USER) →
  _validate_credential_object (VDict d) =
  if bool_decide (_REQUIRED_AUTHORIZED_USER_FIELDS ∖ dom d = ∅)
  then Return (VDict d)
  else _raise_exception_for_missing_fields
         (_REQUIRED_AUTHORIZED_USER_FIELDS ∖ dom d).
Proof using Type.
  intros H. unfold _validate_credential_object. simpl. rewrite H. simpl.
  by case_bool_decide.
Qed.

(** What validation returns is the object it was given. *)
Lemma validate_returns_argument (obj out : pyval) :
  _validate_credential_object obj = Return out → out = obj.
Proof using Type.
  unfold _validate_credential_object.
  destruct obj as [| | | | |l|d]; simpl; try discriminate.
  destruct (d !! TYPE_FIELD_NAME) as [t|]; simpl; [|discriminate].
  destruct (_check_credential_type t); simpl; [|discriminate].
  destruct (py_eq_str t TYPE_AUTHORIZED_USER),
           (py_eq_str t TYPE_SERVICE_ACCOUNT); simpl;
    try discriminate; case_bool_decide; simpl; intros [=]; done.
Qed.

(** ** [serialize_data], by the identity of [credential_type] *)

(** The two optional fields as [serialize_data] passes them on: the
    caller's value, or the default of the signature. *)
#[local] Abbreviation uris kw :=
  (<[TOKEN_URI_FIELD_NAME := default (VStr GOOGLE_TOKEN_URI) (kw_token_uri kw)]>
     {[REVOKE_URI_FIELD_NAME :=
         default (VStr GOOGLE_REVOKE_URI) (kw_revoke_uri kw)]}
   : gmap string pyval).

#[local] Abbreviation service_account_fields kw :=
  (<[PRIVATE_KEY_FIELD_NAME := default VNone (kw_private_key kw)]>
     (<[PRIVATE_KEY_ID_FIELD_NAME := default VNone (kw_private_key_id kw)]>
        (<[CLIENT_EMAIL_FIELD_NAME := default VNone (kw_client_email kw)]>
           (<[CLIENT_ID_FIELD_NAME := default VNone (kw_client_id kw)]>
              {[TYPE_FIELD_NAME := VStr TYPE_SERVICE_ACCOUNT]})))
   : gmap string pyval).

#[local] Abbreviation authorized_user_fields kw :=
  (<[REFRESH_TOKEN_FIELD_NAME := default VNone (kw_refresh_token kw)]>
     (<[CLIENT_SECRET_FIELD_NAME := default VNone (kw_client_secret kw)]>
        (<[CLIENT_ID_FIELD_NAME := default VNone (kw_client_id kw)]>
           {[TYPE_FIELD_NAME := VStr TYPE_AUTHORIZED_USER]}))
   : gmap string pyval).

#[local] Abbreviation flag kw :=
  (truthy (default (VBool false) (kw_include_optional_fields kw))).

(** The dictionaries [serialize_data] fills in pass validation, with or
    without further keys [extra]. *)
Lemma validate_service_account_fields
    (kw : kwargs) (extra : gmap string pyval) :
  _validate_credential_object (VDict (service_account_fields kw ∪ extra)) =
  Return (VDict (service_account_fields kw ∪ extra)).
Proof using Type.
  rewrite validate_service_account.
  - rewrite bool_decide_eq_true_2; [done|].
    rewrite dom_union_L. apply difference_union_absorb.
    by vm_compute.
  - apply lookup_union_Some_l.
    by rewrite !lookup_insert_ne, lookup_singleton_eq.
Qed.

Lemma validate_authorized_user_fields
    (kw : kwargs) (extra : gmap string pyval) :
  _validate_credential_object (VDict (authorized_user_fields kw ∪ extra)) =
  Return (VDict (authorized_user_fields kw ∪ extra)).
Proof using Type.
  rewrite validate_authorized_user.
  - rewrite bool_decide_eq_true_2; [done|].
    rewrite dom_union_L. apply difference_union_absorb.
    by vm_compute.
  - apply lookup_union_Some_l.
    by rewrite !lookup_insert_ne, lookup_singleton_eq.
Qed.

Lemma serialize_data_service_account (kw : kwargs) :
  kw_credential_type kw = Some RefTypeServiceAccount →
  serialize_data kw =
  Return (VDict (if flag kw
                 then service_account_fields kw ∪ uris kw
                 else service_account_fields kw)).
Proof using Type.
  intros H. unfold serialize_data. rewrite H. simpl. rewrite insert_empty.
  destruct (flag kw); [rewrite set_optional_fields_dict|]; simpl.
  - apply validate_service_account_fields.
  - rewrite <- (right_id_L ∅ (∪)) at 1 2.
    apply validate_service_account_fields.
Qed.

Lemma serialize_data_authorized_user (kw : kwargs) :
  kw_credential_type kw = Some RefTypeAuthorizedUser →
  serialize_data kw =
  Return (VDict (if flag kw
                 then authorized_user_fields kw ∪ uris kw
                 else authorized_user_fields kw)).
Proof using Type.
  intros H. unfold serialize_data. rewrite H. simpl. rewrite insert_empty.
  destruct (flag kw); [rewrite set_optional_fields_dict|]; simpl.
  - apply validate_authorized_user_fields.
  - rewrite <- (right_id_L ∅ (∪)) at 1 2.
    apply validate_authorized_user_fields.
Qed.

(** Any other object reaches the last statement: the type check, and
    then the end of the function body, which returns [None]. *)
Lemma serialize_data_other_object (kw : kwargs) (v : pyval) :
  default (RefOther VNone) (kw_credential_type kw) = RefOther v →
  serialize_data kw = (_check_credential_type v ≫= λ _, Return VNone).
Proof using Type. intros H. unfold serialize_data. by rewrite H. Qed.

(** A string whose characters are those of a class attribute, but which is
    not that object, fails both [is] tests and passes the [==] test. *)
Lemma serialize_data_equal_not_identical (kw : kwargs) (v : pyval) :
  kw_credential_type kw = Some (RefOther v) →
  v = VStr TYPE_SERVICE_ACCOUNT ∨ v = VStr TYPE_AUTHORIZED_USER →
  serialize_data kw = Return VNone.
Proof using Type.
  intros H Hv. rewrite (serialize_data_other_object kw v) by (by rewrite H).
  by destruct Hv as [-> | ->].
Qed.

(** The three ways out of [serialize_data]: a document, for the two class
    attributes; [None], for an equal string that is another object; the
    unknown-type exception, for every other value. *)
Lemma serialize_data_outcomes (kw : kwargs) :
  (∃ d, serialize_data kw = Return (VDict d)) ∨
  serialize_data kw = Return VNone ∨
  serialize_data kw = Raise (InvalidCredentialModelError unknown_type_message).
Proof using Type.
  destruct (kw_credential_type kw) as [[| |v]|] eqn:Hty.
  - left. rewrite serialize_data_service_account by done. eauto.
  - left. rewrite serialize_data_authorized_user by done. eauto.
  - right. rewrite (serialize_data_other_object kw v) by (by rewrite Hty).
    unfold _check_credential_type. destruct (negb _); [by right|by left].
  - right. rewrite (serialize_data_other_object kw VNone) by (by rewrite Hty).
    by right.
Qed.

(** Only a dictionary gets through back-filling and validation. *)
Lemma parse_only_dicts (obj tu ru out : pyval) :
  (_set_optional_fields obj tu ru ≫= _validate_credential_object) = Return out →
  ∃ d, obj = VDict d.
Proof using Type.
  destruct obj as [| | | |t|l|d]; try discriminate; [| |by eauto];
    unfold _set_optional_fields; simpl.
  - destruct (is_substring TOKEN_URI_FIELD_NAME t); [|discriminate]. simpl.
    destruct (is_substring REVOKE_URI_FIELD_NAME t); discriminate.
  - destruct (existsb _ l); [|discriminate]. simpl.
    destruct (existsb _ l); discriminate.
Qed.

(** ** The claims *)

(** C10: validation of the absent document [None] raises
    [InvalidCredentialModelError]; the message of the source reads
    "Empty credential object.".  This is the first statement of the body:
    nothing of the document is looked up before it. *)
Theorem validate_None_empty_credential_object :
  _validate_credential_object VNone =
  Raise (InvalidCredentialModelError "Empty credential object.").
Proof using Type. reflexivity. Qed.

(** C9: a dictionary without the [type] key makes validation raise the
    [KeyError] of the lookup [credential_object['type']]; a dictionary whose
    [type] is present with a value other than the two known strings raises
    [InvalidCredentialModelError] instead, and the two exceptions differ. *)
Theorem validate_missing_type_KeyError :
  (∀ d : gmap string pyval,
     d !! TYPE_FIELD_NAME = None →
     _validate_credential_object (VDict d) = Raise (KeyError TYPE_FIELD_NAME)) ∧
  (∀ (d : gmap string pyval) (t : pyval),
     d !! TYPE_FIELD_NAME = Some t →
     py_eq_str t TYPE_SERVICE_ACCOUNT = false →
     py_eq_str t TYPE_AUTHORIZED_USER = false →
     _validate_credential_object (VDict d) =
     Raise (InvalidCredentialModelError unknown_type_message)) ∧
  (∀ msg, KeyError TYPE_FIELD_NAME ≠ InvalidCredentialModelError msg).
Proof using Type.
  split; [exact validate_no_type|]. split; [exact validate_unknown_type|done].
Qed.

(** C3: [serialize_data] with a [credential_type] whose value is neither
    'service_account' nor 'authorized_user' raises
    [InvalidCredentialModelError] with the message that names both values,
    whatever the other arguments are; [loads] and [load] raise the same
    exception on every decoded dictionary whose [type] has such a value. *)
Theorem unknown_type_rejected :
  (∀ kw : kwargs,
     let t := deref (default (RefOther VNone) (kw_credential_type kw)) in
     py_eq_str t TYPE_SERVICE_ACCOUNT = false →
     py_eq_str t TYPE_AUTHORIZED_USER = false →
     serialize_data kw =
     Raise (InvalidCredentialModelError unknown_type_message)) ∧
  (∀ (s : string) (d : gmap string pyval) (t : pyval),
     json_loads s = Return (VDict d) →
     d !! TYPE_FIELD_NAME = Some t →
     py_eq_str t TYPE_SERVICE_ACCOUNT = false →
     py_eq_str t TYPE_AUTHORIZED_USER = false →
     loads s = Raise (InvalidCredentialModelError unknown_type_message) ∧
     load s = Raise (InvalidCredentialModelError unknown_type_message)) ∧
  is_substring "'service_account'" unknown_type_message = true ∧
  is_substring "'authorized_user'" unknown_type_message = true.
Proof using Type.
  split; [|split; [|by split]].
  - intros kw t Hs Ha. subst t.
    destruct (default _ (kw_credential_type kw)) as [| |v] eqn:Hty;
      try discriminate.
    rewrite (serialize_data_other_object kw v Hty). simpl in Hs, Ha.
    unfold _check_credential_type. by rewrite Hs, Ha.
  - intros s d t Hdec Ht Hs Ha. unfold loads, load. rewrite Hdec. simpl.
    rewrite set_optional_fields_dict. simpl.
    by rewrite (validate_unknown_type _ t)
      by (done || by apply lookup_union_Some_l).
Qed.

(** C4: whenever [loads] or [load] returns, the decoded text was a
    dictionary [d] and the result is a dictionary that holds both
    [token_uri] and [revoke_uri]: the value [d] gave when it had the key,
    the constant [GOOGLE_TOKEN_URI] (resp. [GOOGLE_REVOKE_URI]) when it had
    not; every other key is as in [d]. *)
Theorem parse_backfills_uris (s : string) (out : pyval) :
  loads s = Return out ∨ load s = Return out →
  ∃ d d' : gmap string pyval,
    json_loads s = Return (VDict d) ∧ out = VDict d' ∧
    d' !! TOKEN_URI_FIELD_NAME =
      Some (default (VStr GOOGLE_TOKEN_URI) (d !! TOKEN_URI_FIELD_NAME)) ∧
    d' !! REVOKE_URI_FIELD_NAME =
      Some (default (VStr GOOGLE_REVOKE_URI) (d !! REVOKE_URI_FIELD_NAME)) ∧
    ∀ k, k ≠ TOKEN_URI_FIELD_NAME → k ≠ REVOKE_URI_FIELD_NAME →
         d' !! k = d !! k.
Proof using Type.
  intros H.
  assert (Hp : (_set_optional_fields
                  (match json_loads s with Return v => v | Raise _ => VNone end)
                  (VStr GOOGLE_TOKEN_URI) (VStr GOOGLE_REVOKE_URI)
                ≫= _validate_credential_object) = Return out
               ∧ ∃ obj, json_loads s = Return obj).
  { unfold loads, load in H. destruct (json_loads s) as [obj|e].
    - split; [by destruct H|by eauto].
    - by destruct H. }
  destruct Hp as [Hp [obj Hobj]]. rewrite Hobj in Hp.
  destruct (parse_only_dicts _ _ _ _ Hp) as [d ->].
  rewrite set_optional_fields_dict in Hp. simpl in Hp.
  apply validate_returns_argument in Hp as ->.
  eexists d, _. split; [done|]. split; [done|]. split; [|split].
  - rewrite lookup_union, lookup_insert_eq. by destruct (d !! _).
  - rewrite lookup_union, lookup_insert_ne, lookup_singleton_eq by done.
    by destruct (d !! _).
  - intros k H1 H2.
    rewrite lookup_union, lookup_insert_ne, lookup_singleton_ne by done.
    by destruct (d !! k).
Qed.

(** The exception for a non-empty set of missing fields: the names are
    joined with ", " in the order the set is iterated, so the message holds
    each of them. *)
Lemma missing_fields_message (X : gset string) :
  ∃ l : list string,
    l ≡ₚ elements X ∧
    @_raise_exception_for_missing_fields pyval X =
    Raise (InvalidCredentialModelError
             (missing_fields_prefix +:+ String.concat ", " l)) ∧
    ∀ f, f ∈ X →
         is_substring f (missing_fields_prefix +:+ String.concat ", " l) = true.
Proof using set_iter_perm.
  exists (set_iter X). split; [apply set_iter_perm|]. split; [done|].
  intros f Hf. apply is_substring_concat.
  rewrite (set_iter_perm X). by apply elem_of_elements.
Qed.

(** C5: a dictionary of a known type that lacks required fields of that
    type makes validation raise [InvalidCredentialModelError]; the message
    is the fixed prefix followed by the missing names, each once, joined with
    ", " in some order, so every missing name occurs in it.  Parsing a text
    that decodes to the dictionary with [type] 'service_account' and
    [client_id] '123' raises with exactly the names client_email,
    private_key_id and private_key. *)
Theorem missing_fields_reported :
  (∀ (d : gmap string pyval) (required : gset string),
     (d !! TYPE_FIELD_NAME = Some (VStr TYPE_SERVICE_ACCOUNT) ∧
      required = _REQUIRED_SERVICE_ACCOUNT_FIELDS) ∨
     (d !! TYPE_FIELD_NAME = Some (VStr TYPE_AUTHORIZED_USER) ∧
      required = _REQUIRED_AUTHORIZED_USER_FIELDS) →
     required ∖ dom d ≠ ∅ →
     ∃ l : list string,
       l ≡ₚ elements (required ∖ dom d) ∧
       _validate_credential_object (VDict d) =
       Raise (InvalidCredentialModelError
                (missing_fields_prefix +:+ String.concat ", " l)) ∧
       ∀ f, f ∈ required → f ∉ dom d →
            is_substring f (missing_fields_prefix +:+ String.concat ", " l)
            = true) ∧
  (∀ s : string,
     json_loads s =
       Return (VDict (<[TYPE_FIELD_NAME := VStr "service_account"]>
                        {[CLIENT_ID_FIELD_NAME := VStr "123"]})) →
     ∃ l : list string,
       l ≡ₚ ["client_email"; "private_key_id"; "private_key"] ∧
       loads s = Raise (InvalidCredentialModelError
                          (missing_fields_prefix +:+ String.concat ", " l)) ∧
       load s = Raise (InvalidCredentialModelError
                         (missing_fields_prefix +:+ String.concat ", " l))).
Proof using set_iter_perm.
  split.
  - intros d required Hty Hmiss.
    destruct (missing_fields_message (required ∖ dom d)) as (l & Hl & Hr & Hin).
    exists l. split; [done|]. split.
    + destruct Hty as [[Hty ->] | [Hty ->]].
      * rewrite validate_service_account by done.
        by rewrite bool_decide_eq_false_2.
      * rewrite validate_authorized_user by done.
        by rewrite bool_decide_eq_false_2.
    + intros f Hf Hnf. apply Hin. by apply elem_of_difference.
  - intros s Hdec.
    set (d := <[TYPE_FIELD_NAME := VStr "service_account"]>
                {[CLIENT_ID_FIELD_NAME := VStr "123"]} : gmap string pyval) in *.
    set (d' := d ∪ <[TOKEN_URI_FIELD_NAME := VStr GOOGLE_TOKEN_URI]>
                     {[REVOKE_URI_FIELD_NAME := VStr GOOGLE_REVOKE_URI]}).
    assert (Hm : _REQUIRED_SERVICE_ACCOUNT_FIELDS ∖ dom d' =
                 list_to_set ["client_email"; "private_key_id"; "private_key"]).
    { subst d' d. unfold _REQUIRED_SERVICE_ACCOUNT_FIELDS.
      rewrite dom_union_L, !dom_insert_L, !dom_singleton_L.
      apply set_eq. intros x. set_unfold.
      unfold TYPE_FIELD_NAME, CLIENT_ID_FIELD_NAME, CLIENT_EMAIL_FIELD_NAME,
        PRIVATE_KEY_ID_FIELD_NAME, PRIVATE_KEY_FIELD_NAME,
        TOKEN_URI_FIELD_NAME, REVOKE_URI_FIELD_NAME.
      split.
      - intros [[->|[->|[->|[->|[->|[]]]]]] Hn]; try tauto;
          exfalso; apply Hn; tauto.
      - intros [->|[->|[->|[]]]]; (split; [tauto|]);
          intros [[|]|[|]]; discriminate. }
    destruct (missing_fields_message (_REQUIRED_SERVICE_ACCOUNT_FIELDS ∖ dom d'))
      as (l & Hl & Hr & _).
    exists l. split.
    + rewrite Hl, Hm. apply elements_list_to_set.
      apply (bool_decide_unpack _). by vm_compute.
    + unfold loads, load. rewrite Hdec. simpl.
      rewrite set_optional_fields_dict. simpl. fold d'.
      rewrite validate_service_account
        by (subst d' d; apply lookup_union_Some_l, lookup_insert_eq).
      rewrite bool_decide_eq_false_2; [done|].
      rewrite Hm. intros H. apply (f_equal elements) in H.
      by vm_compute in H.
Qed.

(** A document comes back only when [credential_type] is one of the two
    class attributes themselves. *)
Lemma serialize_data_returns_dict (kw : kwargs) (d : gmap string pyval) :
  serialize_data kw = Return (VDict d) →
  (kw_credential_type kw = Some RefTypeServiceAccount ∧
   d = if flag kw then service_account_fields kw ∪ uris kw
       else service_account_fields kw) ∨
  (kw_credential_type kw = Some RefTypeAuthorizedUser ∧
   d = if flag kw then authorized_user_fields kw ∪ uris kw
       else authorized_user_fields kw).
Proof using Type.
  intros H. destruct (kw_credential_type kw) as [[| |v]|] eqn:Hty.
  - left. rewrite serialize_data_service_account in H by done.
    split; congruence.
  - right. rewrite serialize_data_authorized_user in H by done.
    split; congruence.
  - rewrite (serialize_data_other_object kw v) in H by (by rewrite Hty).
    by destruct (_check_credential_type v).
  - rewrite (serialize_data_other_object kw VNone) in H by (by rewrite Hty).
    discriminate.
Qed.

(** C7: when [credential_type] is one of the two class attributes,
    [serialize_data] returns a document; a document returned with a false
    [include_optional_fields] has neither [token_uri] nor [revoke_uri]; a
    document returned with a true one has [token_uri] equal to
    [GOOGLE_TOKEN_URI] when no [token_uri] was passed and [revoke_uri] equal
    to [GOOGLE_REVOKE_URI] when no [revoke_uri] was passed. *)
Theorem optional_fields_follow_flag (kw : kwargs) :
  (kw_credential_type kw = Some RefTypeServiceAccount ∨
   kw_credential_type kw = Some RefTypeAuthorizedUser →
   ∃ d, serialize_data kw = Return (VDict d)) ∧
  (∀ d : gmap string pyval,
     serialize_data kw = Return (VDict d) →
     (flag kw = false →
      d !! TOKEN_URI_FIELD_NAME = None ∧ d !! REVOKE_URI_FIELD_NAME = None) ∧
     (flag kw = true →
      (kw_token_uri kw = None →
       d !! TOKEN_URI_FIELD_NAME = Some (VStr GOOGLE_TOKEN_URI)) ∧
      (kw_revoke_uri kw = None →
       d !! REVOKE_URI_FIELD_NAME = Some (VStr GOOGLE_REVOKE_URI)))).
Proof using Type.
  split.
  - intros [H|H];
      [rewrite serialize_data_service_account by done
      |rewrite serialize_data_authorized_user by done]; eauto.
  - intros d Hd.
    destruct (serialize_data_returns_dict kw d Hd) as [[_ ->]|[_ ->]];
      (split; intros ->; [by simplify_map_eq|]);
      (split; intros ->; rewrite lookup_union_r by (by simplify_map_eq));
      by simplify_map_eq.
Qed.

(** C8: let [serialize_data], called with a true [include_optional_fields],
    return the document [d], and let [s] be a JSON text of [d], that is a
    text that [json.loads] decodes to [d].  Then [loads s] and [load s]
    return [d]. *)
Theorem loads_of_serialized_document
    (kw : kwargs) (d : gmap string pyval) (s : string) :
  serialize_data kw = Return (VDict d) →
  flag kw = true →
  json_loads s = Return (VDict d) →
  loads s = Return (VDict d) ∧ load s = Return (VDict d).
Proof using Type.
  intros Hd Hflag Hdec. unfold loads, load. rewrite Hdec. simpl.
  rewrite set_optional_fields_dict. simpl.
  assert (Hfill : d ∪ <[TOKEN_URI_FIELD_NAME := VStr GOOGLE_TOKEN_URI]>
                        {[REVOKE_URI_FIELD_NAME := VStr GOOGLE_REVOKE_URI]} =
                  d ∧ _validate_credential_object (VDict d) = Return (VDict d)).
  { destruct (serialize_data_returns_dict kw d Hd) as [[_ ->]|[_ ->]];
      rewrite Hflag;
      (split; [|by auto using validate_service_account_fields,
                              validate_authorized_user_fields]);
      apply union_absorb;
      rewrite (dom_union_L _ (uris kw)), !dom_insert_L, !dom_singleton_L;
      apply union_subseteq_r. }
  destruct Hfill as [-> ->]. done.
Qed.

(** C1: called on the class attribute [TYPE_SERVICE_ACCOUNT] with a
    [client_id] and none of [client_email], [private_key_id] and
    [private_key], [serialize_data] raises nothing: it returns a document
    in which the three fields are [None]. *)
Theorem serialize_data_unsupplied_fields_are_None :
  serialize_data
    (Kwargs (Some RefTypeServiceAccount) (Some (VStr "123"))
            None None None None None None None None) =
  Return (VDict (<[TYPE_FIELD_NAME := VStr "service_account"]>
                (<[CLIENT_ID_FIELD_NAME := VStr "123"]>
                (<[CLIENT_EMAIL_FIELD_NAME := VNone]>
                (<[PRIVATE_KEY_ID_FIELD_NAME := VNone]>
                   {[PRIVATE_KEY_FIELD_NAME := VNone]}))))).
Proof using Type. by vm_compute. Qed.

(** C2: called on a string that equals 'service_account' and is not the
    class attribute itself, with every field of a service account supplied,
    [serialize_data] neither raises nor returns a document: it returns
    [None]. *)
Theorem serialize_data_equal_string_returns_None :
  serialize_data
    (Kwargs (Some (RefOther (VStr "service_account"))) (Some (VStr "123"))
            (Some (VStr "dummy@google.com")) None (Some (VStr "key"))
            (Some (VStr "ABCDEF")) None None None None) =
  Return VNone.
Proof using Type. by vm_compute. Qed.

(** C6: called on a string that equals 'authorized_user' and is not the
    class attribute itself, with the three fields of an authorized user
    supplied, [serialize_data] returns [None] where the class attribute gives
    the document of these fields. *)
Theorem serialize_data_authorized_user_by_value :
  serialize_data
    (Kwargs (Some (RefOther (VStr "authorized_user"))) (Some (VStr "123"))
            None (Some (VStr "secret")) None None
            (Some (VStr "alabalaportocala")) None None None) =
  Return VNone ∧
  serialize_data
    (Kwargs (Some RefTypeAuthorizedUser) (Some (VStr "123"))
            None (Some (VStr "secret")) None None
            (Some (VStr "alabalaportocala")) None None None) =
  Return (VDict (<[REFRESH_TOKEN_FIELD_NAME := VStr "alabalaportocala"]>
                (<[CLIENT_SECRET_FIELD_NAME := VStr "secret"]>
                (<[CLIENT_ID_FIELD_NAME := VStr "123"]>
                   {[TYPE_FIELD_NAME := VStr "authorized_user"]})))).
Proof using Type. split; by vm_compute. Qed.

(** ** Further properties of validation *)

Lemma difference_empty_iff (X Y : gset string) : X ∖ Y = ∅ ↔ X ⊆ Y.
Proof using Type.
  split.
  - intros H x Hx. destruct (decide (x ∈ Y)) as [Hy|Hy]; [exact Hy|].
    exfalso. apply (not_elem_of_empty (C := gset string) x).
    rewrite <- H. apply elem_of_difference. by split.
  - intros Hsub. apply set_eq. intros x.
    rewrite elem_of_difference, elem_of_empty.
    split; [|intros []]. intros [Hx Hn]. apply Hn, Hsub, Hx.
Qed.

(** Validation of a dictionary is a function of the value under [type] and
    of the key set. *)
Lemma validate_dict_shape (d : gmap string pyval) :
  _validate_credential_object (VDict d) =
  match d !! TYPE_FIELD_NAME with
  | None => Raise (KeyError TYPE_FIELD_NAME)
  | Some t =>
    if py_eq_str t TYPE_SERVICE_ACCOUNT then
      if bool_decide (_REQUIRED_SERVICE_ACCOUNT_FIELDS ∖ dom d = ∅)
      then Return (VDict d)
      else _raise_exception_for_missing_fields
             (_REQUIRED_SERVICE_ACCOUNT_FIELDS ∖ dom d)
    else if py_eq_str t TYPE_AUTHORIZED_USER then
      if bool_decide (_REQUIRED_AUTHORIZED_USER_FIELDS ∖ dom d = ∅)
      then Return (VDict d)
      else _raise_exception_for_missing_fields
             (_REQUIRED_AUTHORIZED_USER_FIELDS ∖ dom d)
    else Raise (InvalidCredentialModelError unknown_type_message)
  end.
Proof using Type.
  destruct (d !! TYPE_FIELD_NAME) as [t|] eqn:Ht;
    [|by apply validate_no_type].
  destruct (py_eq_str t TYPE_SERVICE_ACCOUNT) eqn:Hs.
  { apply py_eq_str_true in Hs as ->. by apply validate_service_account. }
  destruct (py_eq_str t TYPE_AUTHORIZED_USER) eqn:Ha.
  { apply py_eq_str_true in Ha as ->. by apply validate_authorized_user. }
  by apply (validate_unknown_type d t).
Qed.

Lemma validate_dict_returns (d : gmap string pyval) :
  _validate_credential_object (VDict d) = Return (VDict d) ↔
  (d !! TYPE_FIELD_NAME = Some (VStr TYPE_SERVICE_ACCOUNT) ∧
   _REQUIRED_SERVICE_ACCOUNT_FIELDS ⊆ dom d) ∨
  (d !! TYPE_FIELD_NAME = Some (VStr TYPE_AUTHORIZED_USER) ∧
   _REQUIRED_AUTHORIZED_USER_FIELDS ⊆ dom d).
Proof using Type.
  rewrite validate_dict_shape. split.
  - destruct (d !! TYPE_FIELD_NAME) as [t|]; [|discriminate].
    destruct (py_eq_str t TYPE_SERVICE_ACCOUNT) eqn:Hs.
    { apply py_eq_str_true in Hs as ->. case_bool_decide as Hm; [|discriminate].
      intros _. left. split; [reflexivity|]. by apply difference_empty_iff. }
    destruct (py_eq_str t TYPE_AUTHORIZED_USER) eqn:Ha; [|discriminate].
    apply py_eq_str_true in Ha as ->. case_bool_decide as Hm; [|discriminate].
    intros _. right. split; [reflexivity|]. by apply difference_empty_iff.
  - intros [[-> Hsub]|[-> Hsub]]; simpl;
      apply difference_empty_iff in Hsub;
      by rewrite bool_decide_eq_true_2.
Qed.

(** X1: validation returns exactly on the dictionaries whose [type] is one
    of the two known strings and whose keys include every required field of
    that type; what it returns is then its argument.  Nothing but the key
    set and the type decides. *)
Theorem validate_returns_iff (obj out : pyval) :
  _validate_credential_object obj = Return out ↔
  ∃ d : gmap string pyval,
    obj = VDict d ∧ out = VDict d ∧
    ((d !! TYPE_FIELD_NAME = Some (VStr TYPE_SERVICE_ACCOUNT) ∧
      _REQUIRED_SERVICE_ACCOUNT_FIELDS ⊆ dom d) ∨
     (d !! TYPE_FIELD_NAME = Some (VStr TYPE_AUTHORIZED_USER) ∧
      _REQUIRED_AUTHORIZED_USER_FIELDS ⊆ dom d)).
Proof using Type.
  split.
  - intros H. pose proof (validate_returns_argument _ _ H) as ->.
    destruct obj as [| | | | | |d]; try discriminate H.
    exists d. split; [reflexivity|]. split; [reflexivity|].
    by apply validate_dict_returns.
  - intros (d & -> & -> & Hd). by apply validate_dict_returns.
Qed.

(** X2: validation never looks at the values of the fields: two
    dictionaries with the same keys and the same [type] are both returned,
    or both rejected with the same exception. *)
Theorem validate_ignores_values (d d' : gmap string pyval) :
  dom d = dom d' →
  d !! TYPE_FIELD_NAME = d' !! TYPE_FIELD_NAME →
  (_validate_credential_object (VDict d) = Return (VDict d) ↔
   _validate_credential_object (VDict d') = Return (VDict d')) ∧
  (∀ e, _validate_credential_object (VDict d) = Raise e ↔
        _validate_credential_object (VDict d') = Raise e).
Proof using Type.
  intros Hdom Hty. rewrite !validate_dict_shape, <- Hty, <- Hdom.
  destruct (d !! TYPE_FIELD_NAME) as [t|]; [|by split].
  destruct (py_eq_str t TYPE_SERVICE_ACCOUNT);
    [|destruct (py_eq_str t TYPE_AUTHORIZED_USER); [|by split]];
    case_bool_decide; by split.
Qed.

(** X3: a value that is neither [None] nor a dictionary makes validation
    raise the [TypeError] of the lookup of [type]; and on no value at all
    does validation raise [UnboundLocalError] or [AttributeError]: where the
    local [missing_fields] is read, one of the two [if]s has bound it. *)
Theorem validate_other_values :
  (∀ obj : pyval,
     obj ≠ VNone → (∀ d, obj ≠ VDict d) →
     _validate_credential_object obj = Raise TypeError) ∧
  (∀ obj : pyval,
     _validate_credential_object obj ≠ Raise UnboundLocalError ∧
     _validate_credential_object obj ≠ Raise AttributeError).
Proof using Type.
  split.
  - intros obj Hnone Hdict.
    destruct obj as [| | | | | |d]; try reflexivity;
      [by destruct Hnone | by destruct (Hdict d)].
  - intros obj. destruct obj as [| | | | | |d]; try (split; discriminate).
    rewrite validate_dict_shape.
    destruct (d !! TYPE_FIELD_NAME) as [t|]; [|split; discriminate].
    destruct (py_eq_str t TYPE_SERVICE_ACCOUNT);
      [|destruct (py_eq_str t TYPE_AUTHORIZED_USER); [|split; discriminate]];
      case_bool_decide; split; discriminate.
Qed.

(** X4: keys beyond the required ones are accepted: a dictionary that
    extends a valid one, with the same values under the keys they share, is
    valid too. *)
Theorem validate_accepts_more_keys (d d' : gmap string pyval) :
  _validate_credential_object (VDict d) = Return (VDict d) →
  d ⊆ d' →
  _validate_credential_object (VDict d') = Return (VDict d').
Proof using Type.
  intros Hd Hsub. apply validate_dict_returns.
  apply validate_dict_returns in Hd as [[Ht Hreq]|[Ht Hreq]]; [left|right];
    (split; [by apply (lookup_weaken d d')|]);
    (etrans; [exact Hreq|by apply subseteq_dom]).
Qed.

(** ** Further properties of back-filling and parsing *)

(** X5: back-filling a dictionary always returns; the result keeps every
    entry of the dictionary, its keys are those of the dictionary and the
    two URI names, and back-filling it again, with whatever values, changes
    nothing. *)
Theorem set_optional_fields_keeps_entries
    (d : gmap string pyval) (tu ru : pyval) :
  ∃ d' : gmap string pyval,
    _set_optional_fields (VDict d) tu ru = Return (VDict d') ∧
    d ⊆ d' ∧
    dom d' = dom d ∪ {[TOKEN_URI_FIELD_NAME; REVOKE_URI_FIELD_NAME]} ∧
    ∀ tu' ru', _set_optional_fields (VDict d') tu' ru' = Return (VDict d').
Proof using Type.
  eexists. split; [apply set_optional_fields_dict|].
  split; [apply map_union_subseteq_l|]. split.
  - by rewrite dom_union_L, dom_insert_L, dom_singleton_L.
  - intros tu' ru'. rewrite set_optional_fields_dict. do 2 f_equal.
    apply union_absorb.
    rewrite dom_union_L, !dom_insert_L, !dom_singleton_L.
    apply union_subseteq_r.
Qed.

(** The two URI names are required by neither type, so back-filling leaves
    the set of missing fields as it is. *)
Lemma missing_after_backfill (d x : gmap string pyval) (X : gset string) :
  X = _REQUIRED_SERVICE_ACCOUNT_FIELDS ∨ X = _REQUIRED_AUTHORIZED_USER_FIELDS →
  dom x = {[TOKEN_URI_FIELD_NAME; REVOKE_URI_FIELD_NAME]} →
  X ∖ dom (d ∪ x) = X ∖ dom d.
Proof using Type.
  intros HX Hx. rewrite dom_union_L, Hx. apply set_eq. intros k.
  rewrite !elem_of_difference, !elem_of_union, !elem_of_singleton.
  split; [intros [Hk Hn]; split; [exact Hk|]; intros Hd; apply Hn; by left|].
  intros [Hk Hn]. split; [exact Hk|]. intros [Hd|Huri]; [by apply Hn|].
  destruct HX as [-> | ->];
    apply elem_of_list_to_set in Hk;
    repeat (apply elem_of_cons in Hk as [->|Hk];
            [by destruct Huri as [Huri|Huri]; inversion Huri|]);
    by apply elem_of_nil in Hk.
Qed.

(** X6: on a dictionary, back-filling and then validating is validating and
    then back-filling: same document returned, same exception raised.  So
    [loads] and [load] return or raise as validation of the decoded
    dictionary itself does, the defaults neither rescuing nor spoiling it. *)
Theorem backfill_commutes_with_validation :
  (∀ (d : gmap string pyval) (tu ru : pyval),
     (_set_optional_fields (VDict d) tu ru ≫= _validate_credential_object) =
     (_validate_credential_object (VDict d)
        ≫= λ obj, _set_optional_fields obj tu ru)) ∧
  (∀ (s : string) (d : gmap string pyval),
     json_loads s = Return (VDict d) →
     loads s = (_validate_credential_object (VDict d)
                  ≫= λ obj, _set_optional_fields obj (VStr GOOGLE_TOKEN_URI)
                                                 (VStr GOOGLE_REVOKE_URI)) ∧
     load s = (_validate_credential_object (VDict d)
                 ≫= λ obj, _set_optional_fields obj (VStr GOOGLE_TOKEN_URI)
                                                (VStr GOOGLE_REVOKE_URI))).
Proof using Type.
  assert (Hcomm : ∀ (d : gmap string pyval) (tu ru : pyval),
     (_set_optional_fields (VDict d) tu ru ≫= _validate_credential_object) =
     (_validate_credential_object (VDict d)
        ≫= λ obj, _set_optional_fields obj tu ru)).
  { intros d tu ru. rewrite set_optional_fields_dict. simpl.
    rewrite !validate_dict_shape.
    rewrite !missing_after_backfill
      by (auto; by rewrite dom_insert_L, dom_singleton_L).
    rewrite lookup_union, !lookup_insert_ne, lookup_singleton_ne by done.
    destruct (d !! TYPE_FIELD_NAME) as [t|]; simpl; [|reflexivity].
    destruct (py_eq_str t TYPE_SERVICE_ACCOUNT);
      [|destruct (py_eq_str t TYPE_AUTHORIZED_USER); [|reflexivity]];
      case_bool_decide; simpl;
      by rewrite ?set_optional_fields_dict. }
  split; [exact Hcomm|].
  intros s d Hdec. unfold loads, load. rewrite Hdec. simpl.
  split; apply Hcomm.
Qed.

(** X7: a text that decodes to anything but a dictionary ([null], a number,
    a string, a list) makes [loads] and [load] raise [TypeError], from the
    membership test, the item assignment or the lookup of [type]; for [null]
    this is not the exception validation has for an absent document. *)
Theorem parse_non_dict_TypeError (s : string) (v : pyval) :
  json_loads s = Return v →
  (∀ d, v ≠ VDict d) →
  loads s = Raise TypeError ∧ load s = Raise TypeError.
Proof using Type.
  intros Hdec Hv. unfold loads, load. rewrite Hdec. simpl.
  destruct v as [| | | |t|l|d]; try (split; reflexivity);
    [| |by destruct (Hv d)]; unfold _set_optional_fields; simpl.
  - destruct (is_substring TOKEN_URI_FIELD_NAME t); simpl; [|by split].
    destruct (is_substring REVOKE_URI_FIELD_NAME t); simpl; by split.
  - destruct (existsb _ l); simpl; [|by split].
    destruct (existsb _ l); simpl; by split.
Qed.

(** X8: when exactly one required field is missing, the message does not
    depend on the order in which the set is iterated: it is the fixed prefix
    followed by that name. *)
Theorem single_missing_field_message
    (d : gmap string pyval) (required : gset string) (f : string) :
  (d !! TYPE_FIELD_NAME = Some (VStr TYPE_SERVICE_ACCOUNT) ∧
   required = _REQUIRED_SERVICE_ACCOUNT_FIELDS) ∨
  (d !! TYPE_FIELD_NAME = Some (VStr TYPE_AUTHORIZED_USER) ∧
   required = _REQUIRED_AUTHORIZED_USER_FIELDS) →
  required ∖ dom d = {[f]} →
  _validate_credential_object (VDict d) =
  Raise (InvalidCredentialModelError (missing_fields_prefix +:+ f)).
Proof using set_iter_perm.
  intros Hty Hone.
  assert (Hiter : set_iter {[f]} = [f]).
  { apply Permutation_singleton_r. by rewrite set_iter_perm, elements_singleton. }
  assert (Hne : ({[f]} : gset string) ≠ ∅).
  { intros H. apply (not_elem_of_empty (C := gset string) f).
    rewrite <- H. by apply elem_of_singleton. }
  destruct Hty as [[Hty ->]|[Hty ->]];
    [rewrite validate_service_account by done
    |rewrite validate_authorized_user by done];
    rewrite Hone, bool_decide_eq_false_2 by done;
    unfold _raise_exception_for_missing_fields; by rewrite Hiter.
Qed.

(** ** Further properties of [serialize_data] *)

Lemma serialize_data_other_cases (kw : kwargs) (v : pyval) :
  default (RefOther VNone) (kw_credential_type kw) = RefOther v →
  serialize_data kw =
  if py_eq_str v TYPE_SERVICE_ACCOUNT || py_eq_str v TYPE_AUTHORIZED_USER
  then Return VNone
  else Raise (InvalidCredentialModelError unknown_type_message).
Proof using Type.
  intros H. rewrite (serialize_data_other_object kw v H).
  unfold _check_credential_type. by destruct (_ || _).
Qed.

(** X9: what [serialize_data] does is decided by [credential_type] alone.
    It returns a document exactly when the argument is one of the two class
    attributes; it returns [None] exactly when the argument is another
    object whose value is one of the two known strings; it raises the
    unknown-type exception exactly when the argument has any other value. *)
Theorem serialize_data_outcome_by_type (kw : kwargs) :
  let r := default (RefOther VNone) (kw_credential_type kw) in
  ((r = RefTypeServiceAccount ∨ r = RefTypeAuthorizedUser) ↔
   ∃ d, serialize_data kw = Return (VDict d)) ∧
  ((∃ v, r = RefOther v ∧
         (v = VStr TYPE_SERVICE_ACCOUNT ∨ v = VStr TYPE_AUTHORIZED_USER)) ↔
   serialize_data kw = Return VNone) ∧
  ((∃ v, r = RefOther v ∧
         v ≠ VStr TYPE_SERVICE_ACCOUNT ∧ v ≠ VStr TYPE_AUTHORIZED_USER) ↔
   serialize_data kw = Raise (InvalidCredentialModelError unknown_type_message)).
Proof using Type.
  intros r.
  assert (Hr : (r = RefTypeServiceAccount ∧
                kw_credential_type kw = Some RefTypeServiceAccount) ∨
               (r = RefTypeAuthorizedUser ∧
                kw_credential_type kw = Some RefTypeAuthorizedUser) ∨
               (∃ v, r = RefOther v)).
  { subst r. destruct (kw_credential_type kw) as [[| |v]|]; simpl; eauto. }
  destruct Hr as [[Hr Hty]|[[Hr Hty]|[v Hr]]].
  - rewrite Hr, (serialize_data_service_account kw Hty).
    split; [split; eauto|]. split; (split; [|discriminate]).
    + intros (v & [=] & _).
    + intros (v & [=] & _).
  - rewrite Hr, (serialize_data_authorized_user kw Hty).
    split; [split; eauto|]. split; (split; [|discriminate]).
    + intros (v & [=] & _).
    + intros (v & [=] & _).
  - rewrite Hr, (serialize_data_other_cases kw v Hr).
    destruct (py_eq_str v TYPE_SERVICE_ACCOUNT) eqn:Hs.
    { apply py_eq_str_true in Hs as ->. simpl. split; [|split].
      - split; [intros [[=]|[=]]|intros [d [=]]].
      - split; [reflexivity|]. intros _. exists (VStr TYPE_SERVICE_ACCOUNT).
        split; [reflexivity|by left].
      - split; [|discriminate]. intros (v & [= <-] & Hv & _). by destruct Hv. }
    destruct (py_eq_str v TYPE_AUTHORIZED_USER) eqn:Ha.
    { apply py_eq_str_true in Ha as ->. simpl. split; [|split].
      - split; [intros [[=]|[=]]|intros [d [=]]].
      - split; [reflexivity|]. intros _. exists (VStr TYPE_AUTHORIZED_USER).
        split; [reflexivity|by right].
      - split; [|discriminate]. intros (v & [= <-] & _ & Hv). by destruct Hv. }
    simpl. split; [|split].
    + split; [intros [[=]|[=]]|intros [d [=]]].
    + split; [|discriminate]. intros (w & [= <-] & [-> | ->]); discriminate.
    + split; [reflexivity|]. intros _. exists v. split; [reflexivity|].
      split; intros ->; discriminate.
Qed.

(** X10: a document that [serialize_data] returns holds, under each field
    name of its type, the argument passed for that field, or [None] when
    none was passed; its keys are exactly the required fields of the type,
    and the two URI names when [include_optional_fields] is true. *)
Theorem serialize_data_document_fields (kw : kwargs) (d : gmap string pyval) :
  serialize_data kw = Return (VDict d) →
  d !! CLIENT_ID_FIELD_NAME = Some (default VNone (kw_client_id kw)) ∧
  ((kw_credential_type kw = Some RefTypeServiceAccount ∧
    d !! TYPE_FIELD_NAME = Some (VStr TYPE_SERVICE_ACCOUNT) ∧
    d !! CLIENT_EMAIL_FIELD_NAME = Some (default VNone (kw_client_email kw)) ∧
    d !! PRIVATE_KEY_ID_FIELD_NAME =
      Some (default VNone (kw_private_key_id kw)) ∧
    d !! PRIVATE_KEY_FIELD_NAME = Some (default VNone (kw_private_key kw)) ∧
    dom d = _REQUIRED_SERVICE_ACCOUNT_FIELDS ∪
            (if flag kw
             then {[TOKEN_URI_FIELD_NAME; REVOKE_URI_FIELD_NAME]} else ∅)) ∨
   (kw_credential_type kw = Some RefTypeAuthorizedUser ∧
    d !! TYPE_FIELD_NAME = Some (VStr TYPE_AUTHORIZED_USER) ∧
    d !! CLIENT_SECRET_FIELD_NAME =
      Some (default VNone (kw_client_secret kw)) ∧
    d !! REFRESH_TOKEN_FIELD_NAME =
      Some (default VNone (kw_refresh_token kw)) ∧
    dom d = _REQUIRED_AUTHORIZED_USER_FIELDS ∪
            (if flag kw
             then {[TOKEN_URI_FIELD_NAME; REVOKE_URI_FIELD_NAME]} else ∅))).
Proof using Type.
  intros H.
  assert (Hsa : dom (service_account_fields kw) =
                _REQUIRED_SERVICE_ACCOUNT_FIELDS) by (by vm_compute).
  assert (Hau : dom (authorized_user_fields kw) =
                _REQUIRED_AUTHORIZED_USER_FIELDS) by (by vm_compute).
  destruct (serialize_data_returns_dict kw d H) as [[Hty ->]|[Hty ->]];
    (split; [|(left + right); split; [exact Hty|]]);
    destruct (flag kw);
    rewrite ?dom_union_L, ?dom_insert_L, ?dom_singleton_L, ?Hsa, ?Hau,
            ?(right_id_L ∅ (∪));
    repeat split;
    try reflexivity;
    try (apply lookup_union_Some_l);
    by rewrite ?lookup_insert_eq, ?lookup_insert_ne, ?lookup_singleton_eq.
Qed.

(** X11: a document that [serialize_data] returns with a true
    [include_optional_fields] holds, under each URI name, the argument passed
    for it, whatever that is (an explicit [None] included), and the constant
    of the signature when none was passed. *)
Theorem serialize_data_uri_arguments (kw : kwargs) (d : gmap string pyval) :
  serialize_data kw = Return (VDict d) →
  flag kw = true →
  d !! TOKEN_URI_FIELD_NAME =
    Some (default (VStr GOOGLE_TOKEN_URI) (kw_token_uri kw)) ∧
  d !! REVOKE_URI_FIELD_NAME =
    Some (default (VStr GOOGLE_REVOKE_URI) (kw_revoke_uri kw)).
Proof using Type.
  intros H Hflag.
  destruct (serialize_data_returns_dict kw d H) as [[_ ->]|[_ ->]];
    rewrite Hflag; split;
    (rewrite lookup_union_r
       by (by rewrite ?lookup_insert_ne, ?lookup_singleton_ne));
    by rewrite ?lookup_insert_eq, ?lookup_insert_ne, ?lookup_singleton_eq.
Qed.

(** X12: the arguments of the other type are never read: [client_secret]
    and [refresh_token] do not change what a service account call gives, nor
    [client_email], [private_key] and [private_key_id] what an authorized
    user call gives; and with a false [include_optional_fields] neither
    [token_uri] nor [revoke_uri] changes anything, for any
    [credential_type]. *)
Theorem serialize_data_ignores_other_fields :
  (∀ cid cem cs pk pkid rt tu ru inc cs' rt',
     serialize_data (Kwargs (Some RefTypeServiceAccount)
                            cid cem cs pk pkid rt tu ru inc) =
     serialize_data (Kwargs (Some RefTypeServiceAccount)
                            cid cem cs' pk pkid rt' tu ru inc)) ∧
  (∀ cid cem cs pk pkid rt tu ru inc cem' pk' pkid',
     serialize_data (Kwargs (Some RefTypeAuthorizedUser)
                            cid cem cs pk pkid rt tu ru inc) =
     serialize_data (Kwargs (Some RefTypeAuthorizedUser)
                            cid cem' cs pk' pkid' rt tu ru inc)) ∧
  (∀ ct cid cem cs pk pkid rt tu ru inc tu' ru',
     truthy (default (VBool false) inc) = false →
     serialize_data (Kwargs ct cid cem cs pk pkid rt tu ru inc) =
     serialize_data (Kwargs ct cid cem cs pk pkid rt tu' ru' inc)).
Proof using Type.
  split; [|split].
  - intros. by rewrite !serialize_data_service_account.
  - intros. by rewrite !serialize_data_authorized_user.
  - intros ct cid cem cs pk pkid rt tu ru inc tu' ru' Hflag.
    destruct ct as [[| |v]|].
    + rewrite !serialize_data_service_account by done. simpl.
      by rewrite Hflag.
    + rewrite !serialize_data_authorized_user by done. simpl.
      by rewrite Hflag.
    + by rewrite !(serialize_data_other_object _ v).
    + by rewrite !(serialize_data_other_object _ VNone).
Qed.

(** X13: parsing a text of a document built without the optional fields
    does not give that document back: it gives the document the same call
    builds with [include_optional_fields] true and no URI passed. *)
Theorem loads_of_document_without_uris
    (kw : kwargs) (d : gmap string pyval) (s : string) :
  serialize_data kw = Return (VDict d) →
  flag kw = false →
  json_loads s = Return (VDict d) →
  loads s =
  serialize_data
    (Kwargs (kw_credential_type kw) (kw_client_id kw) (kw_client_email kw)
            (kw_client_secret kw) (kw_private_key kw) (kw_private_key_id kw)
            (kw_refresh_token kw) None None (Some (VBool true))) ∧
  loads s ≠ Return (VDict d).
Proof using Type.
  intros H Hflag Hdec.
  assert (Hgoal : loads s =
    serialize_data
      (Kwargs (kw_credential_type kw) (kw_client_id kw) (kw_client_email kw)
              (kw_client_secret kw) (kw_private_key kw) (kw_private_key_id kw)
              (kw_refresh_token kw) None None (Some (VBool true))) ∧
    ∃ d', loads s = Return (VDict d') ∧ is_Some (d' !! TOKEN_URI_FIELD_NAME) ∧
          d !! TOKEN_URI_FIELD_NAME = None).
  { unfold loads. rewrite Hdec. simpl. rewrite set_optional_fields_dict. simpl.
    destruct (serialize_data_returns_dict kw d H) as [[Hty ->]|[Hty ->]];
      rewrite Hflag.
    - rewrite serialize_data_service_account by done. simpl.
      rewrite validate_service_account_fields. split; [done|].
      eexists. split; [done|]. split.
      + rewrite lookup_union_r, lookup_insert_eq
          by (by rewrite ?lookup_insert_ne, ?lookup_singleton_ne). eauto.
      + by rewrite ?lookup_insert_ne, ?lookup_singleton_ne.
    - rewrite serialize_data_authorized_user by done. simpl.
      rewrite validate_authorized_user_fields. split; [done|].
      eexists. split; [done|]. split.
      + rewrite lookup_union_r, lookup_insert_eq
          by (by rewrite ?lookup_insert_ne, ?lookup_singleton_ne). eauto.
      + by rewrite ?lookup_insert_ne, ?lookup_singleton_ne. }
  destruct Hgoal as [Heq (d' & Hd' & [x Hx] & Hnone)]. split; [exact Heq|].
  rewrite Hd'. intros [= ->]. congruence.
Qed.

(** X14: the call of the docstring's usage line,
    [serialize_data('authorized_user', client_id, client_secret,
    refresh_token)], binds its third value to [client_email] and its fourth
    to [client_secret]: the document returned holds the refresh token as
    [client_secret], [None] as [refresh_token], and the secret nowhere. *)
Theorem docstring_usage_misplaces_fields
    (client_id client_secret refresh_token : pyval) :
  (positional RefTypeAuthorizedUser [client_id; client_secret; refresh_token]
     ≫= serialize_data) =
  Return (VDict (<[REFRESH_TOKEN_FIELD_NAME := VNone]>
                (<[CLIENT_SECRET_FIELD_NAME := refresh_token]>
                (<[CLIENT_ID_FIELD_NAME := client_id]>
                   {[TYPE_FIELD_NAME := VStr TYPE_AUTHORIZED_USER]})))).
Proof using Type.
  unfold positional. simpl. by rewrite serialize_data_authorized_user.
Qed.

End Methods.

(** ** The methods on concrete inputs

    The section's parameters are instantiated with the sample constants,
    the reference decoder and the enumeration [elements] of a set. *)

#[local] Abbreviation sample_serialize_data :=
  (serialize_data Sample.GOOGLE_TOKEN_URI Sample.GOOGLE_REVOKE_URI elements).
#[local] Abbreviation sample_loads :=
  (loads Sample.GOOGLE_TOKEN_URI Sample.GOOGLE_REVOKE_URI
         MiniJson.loads elements).
#[local] Abbreviation sample_load :=
  (load Sample.GOOGLE_TOKEN_URI Sample.GOOGLE_REVOKE_URI
        MiniJson.loads elements).
#[local] Abbreviation sample_validate :=
  (_validate_credential_object elements).

Lemma validate_missing_type_KeyError_witness :
  sample_validate (VDict {[CLIENT_ID_FIELD_NAME := VStr "123"]}) =
    Raise (KeyError "type") ∧
  sample_validate (VDict {[TYPE_FIELD_NAME := VStr "badtype"]}) =
    Raise (InvalidCredentialModelError unknown_type_message).
Proof.
  destruct (validate_missing_type_KeyError elements) as (Hnone & Hbad & _).
  split.
  - apply Hnone. reflexivity.
  - apply (Hbad _ (VStr "badtype")); reflexivity.
Defined.

Lemma unknown_type_rejected_witness :
  sample_serialize_data
    (Kwargs (Some (RefOther (VStr "badtype"))) (Some (VStr "123"))
            None None None None None None None None) =
    Raise (InvalidCredentialModelError unknown_type_message) ∧
  sample_loads (MiniJson.text "{'type': 'badtype', 'client_id': '123'}") =
    Raise (InvalidCredentialModelError unknown_type_message).
Proof.
  destruct (unknown_type_rejected Sample.GOOGLE_TOKEN_URI
              Sample.GOOGLE_REVOKE_URI MiniJson.loads elements)
    as (Hbuild & Hparse & _).
  split.
  - apply Hbuild; reflexivity.
  - apply (Hparse _ (<[TYPE_FIELD_NAME := VStr "badtype"]>
                       {[CLIENT_ID_FIELD_NAME := VStr "123"]})
                  (VStr "badtype")).
    + vm_compute. reflexivity.
    + reflexivity.
    + reflexivity.
    + reflexivity.
Defined.

Lemma parse_backfills_uris_witness :
  ∃ d d' : gmap string pyval,
    MiniJson.loads
      (MiniJson.text
         "{'type': 'authorized_user', 'client_id': '123', 'client_secret': 'secret', 'refresh_token': 'alabalaportocala', 'token_uri': 'dummy_token_uri'}")
    = Return (VDict d) ∧
    VDict (<[TYPE_FIELD_NAME := VStr "authorized_user"]>
          (<[CLIENT_ID_FIELD_NAME := VStr "123"]>
          (<[CLIENT_SECRET_FIELD_NAME := VStr "secret"]>
          (<[REFRESH_TOKEN_FIELD_NAME := VStr "alabalaportocala"]>
          (<[TOKEN_URI_FIELD_NAME := VStr "dummy_token_uri"]>
             {[REVOKE_URI_FIELD_NAME := VStr Sample.GOOGLE_REVOKE_URI]})))))
    = VDict d' ∧
    d' !! TOKEN_URI_FIELD_NAME =
      Some (default (VStr Sample.GOOGLE_TOKEN_URI) (d !! TOKEN_URI_FIELD_NAME)) ∧
    d' !! REVOKE_URI_FIELD_NAME =
      Some (default (VStr Sample.GOOGLE_REVOKE_URI)
                    (d !! REVOKE_URI_FIELD_NAME)) ∧
    ∀ k, k ≠ TOKEN_URI_FIELD_NAME → k ≠ REVOKE_URI_FIELD_NAME →
         d' !! k = d !! k.
Proof.
  apply (parse_backfills_uris Sample.GOOGLE_TOKEN_URI Sample.GOOGLE_REVOKE_URI
           MiniJson.loads elements).
  left. vm_compute. reflexivity.
Defined.

Lemma missing_fields_reported_witness :
  (∃ l : list string,
     l ≡ₚ ["refresh_token"] ∧
     sample_validate
       (VDict (<[TYPE_FIELD_NAME := VStr "authorized_user"]>
              (<[CLIENT_ID_FIELD_NAME := VStr "123"]>
                 {[CLIENT_SECRET_FIELD_NAME := VStr "secret"]}))) =
     Raise (InvalidCredentialModelError
              (missing_fields_prefix +:+ String.concat ", " l))) ∧
  (∃ l : list string,
     l ≡ₚ ["client_email"; "private_key_id"; "private_key"] ∧
     sample_loads
       (MiniJson.text "{'type': 'service_account', 'client_id': '123'}") =
     Raise (InvalidCredentialModelError
              (missing_fields_prefix +:+ String.concat ", " l))).
Proof.
  destruct (missing_fields_reported Sample.GOOGLE_TOKEN_URI
              Sample.GOOGLE_REVOKE_URI MiniJson.loads elements
              (λ X, reflexivity (elements X)))
    as (Hvalidate & Hparse).
  split.
  - destruct (Hvalidate
                (<[TYPE_FIELD_NAME := VStr "authorized_user"]>
                (<[CLIENT_ID_FIELD_NAME := VStr "123"]>
                   {[CLIENT_SECRET_FIELD_NAME := VStr "secret"]}))
                _REQUIRED_AUTHORIZED_USER_FIELDS)
      as (l & Hl & Hraise & _).
    + right. split; reflexivity.
    + intros H. apply (f_equal elements) in H. vm_compute in H. discriminate H.
    + exists l. split; [|exact Hraise].
      rewrite Hl. vm_compute. reflexivity.
  - destruct (Hparse (MiniJson.text
                        "{'type': 'service_account', 'client_id': '123'}"))
      as (l & Hl & Hloads & _).
    + vm_compute. reflexivity.
    + exists l. split; [exact Hl | exact Hloads].
Defined.

Lemma optional_fields_follow_flag_witness :
  sample_serialize_data
    (Kwargs (Some RefTypeAuthorizedUser) (Some (VStr "123")) None
            (Some (VStr "secret")) None None
            (Some (VStr "alabalaportocala")) None None (Some (VBool true))) =
  Return (VDict (<[TYPE_FIELD_NAME := VStr "authorized_user"]>
                (<[CLIENT_ID_FIELD_NAME := VStr "123"]>
                (<[CLIENT_SECRET_FIELD_NAME := VStr "secret"]>
                (<[REFRESH_TOKEN_FIELD_NAME := VStr "alabalaportocala"]>
                (<[TOKEN_URI_FIELD_NAME := VStr Sample.GOOGLE_TOKEN_URI]>
                   {[REVOKE_URI_FIELD_NAME :=
                       VStr Sample.GOOGLE_REVOKE_URI]})))))) ∧
  (∃ d, sample_serialize_data
          (Kwargs (Some RefTypeAuthorizedUser) (Some (VStr "123")) None
                  (Some (VStr "secret")) None None
                  (Some (VStr "alabalaportocala")) None None None) =
        Return (VDict d) ∧
        d !! TOKEN_URI_FIELD_NAME = None ∧
        d !! REVOKE_URI_FIELD_NAME = None).
Proof.
  split; [by vm_compute|].
  destruct (optional_fields_follow_flag Sample.GOOGLE_TOKEN_URI
              Sample.GOOGLE_REVOKE_URI elements
              (Kwargs (Some RefTypeAuthorizedUser) (Some (VStr "123")) None
                      (Some (VStr "secret")) None None
                      (Some (VStr "alabalaportocala")) None None None))
    as (Hret & Hkeys).
  destruct Hret as [d Hd]; [by right|].
  exists d. split; [exact Hd|].
  apply (Hkeys d Hd). reflexivity.
Defined.

Lemma loads_of_serialized_document_witness :
  sample_loads
    (MiniJson.text
       "{'type': 'service_account', 'client_id': '123', 'client_email': 'dummy@google.com', 'private_key_id': 'ABCDEF', 'private_key': 'key', 'token_uri': 'https://accounts.google.com/o/oauth2/token', 'revoke_uri': 'dummy_revoke_uri'}") =
  sample_serialize_data
    (Kwargs (Some RefTypeServiceAccount) (Some (VStr "123"))
            (Some (VStr "dummy@google.com")) None (Some (VStr "key"))
            (Some (VStr "ABCDEF")) None None
            (Some (VStr "dummy_revoke_uri")) (Some (VBool true))).
Proof.
  set (kw := Kwargs (Some RefTypeServiceAccount) (Some (VStr "123"))
               (Some (VStr "dummy@google.com")) None (Some (VStr "key"))
               (Some (VStr "ABCDEF")) None None
               (Some (VStr "dummy_revoke_uri")) (Some (VBool true))).
  assert (Hd : ∃ d, sample_serialize_data kw = Return (VDict d)).
  { eexists. by apply serialize_data_service_account. }
  destruct Hd as [d Hd]. rewrite Hd.
  apply (loads_of_serialized_document Sample.GOOGLE_TOKEN_URI
           Sample.GOOGLE_REVOKE_URI MiniJson.loads elements kw d).
  - exact Hd.
  - reflexivity.
  - rewrite <- Hd. vm_compute. reflexivity.
Defined.

#[local] Abbreviation service_account_sample v :=
  (<[TYPE_FIELD_NAME := VStr "service_account"]>
  (<[CLIENT_ID_FIELD_NAME := v]>
  (<[CLIENT_EMAIL_FIELD_NAME := v]>
  (<[PRIVATE_KEY_ID_FIELD_NAME := v]>
     {[PRIVATE_KEY_FIELD_NAME := v]}))) : gmap string pyval).

#[local] Abbreviation authorized_user_sample :=
  (<[TYPE_FIELD_NAME := VStr "authorized_user"]>
  (<[CLIENT_ID_FIELD_NAME := VStr "123"]>
  (<[CLIENT_SECRET_FIELD_NAME := VStr "secret"]>
     {[REFRESH_TOKEN_FIELD_NAME := VStr "alabalaportocala"]}))
   : gmap string pyval).

Lemma validate_ignores_values_witness :
  sample_validate (VDict (service_account_sample VNone)) =
  Return (VDict (service_account_sample VNone)).
Proof.
  apply (validate_ignores_values elements
           (service_account_sample (VStr "123"))
           (service_account_sample VNone)).
  - vm_compute. reflexivity.
  - reflexivity.
  - vm_compute. reflexivity.
Defined.

Lemma validate_other_values_witness :
  sample_validate (VList [VStr "type"]) = Raise TypeError ∧
  sample_validate (VStr "service_account") = Raise TypeError.
Proof.
  destruct (validate_other_values elements) as [Hother _].
  split; apply Hother; discriminate.
Defined.

Lemma validate_accepts_more_keys_witness :
  sample_validate
    (VDict (<["project_id" := VStr "demo"]> authorized_user_sample)) =
  Return (VDict (<["project_id" := VStr "demo"]> authorized_user_sample)).
Proof.
  apply (validate_accepts_more_keys elements authorized_user_sample).
  - vm_compute. reflexivity.
  - apply insert_subseteq. vm_compute. reflexivity.
Defined.

Lemma backfill_commutes_with_validation_witness :
  sample_loads (MiniJson.text "{'client_id': '123'}") =
  (sample_validate (VDict {[CLIENT_ID_FIELD_NAME := VStr "123"]})
     ≫= λ obj, _set_optional_fields obj (VStr Sample.GOOGLE_TOKEN_URI)
                                    (VStr Sample.GOOGLE_REVOKE_URI)).
Proof.
  apply (backfill_commutes_with_validation Sample.GOOGLE_TOKEN_URI
           Sample.GOOGLE_REVOKE_URI MiniJson.loads elements).
  vm_compute. reflexivity.
Defined.

Lemma parse_non_dict_TypeError_witness :
  sample_loads (MiniJson.text "null") = Raise TypeError ∧
  sample_loads (MiniJson.text "['token_uri', 'revoke_uri']") = Raise TypeError.
Proof.
  split.
  - apply (parse_non_dict_TypeError Sample.GOOGLE_TOKEN_URI
             Sample.GOOGLE_REVOKE_URI MiniJson.loads elements _ VNone).
    + vm_compute. reflexivity.
    + discriminate.
  - apply (parse_non_dict_TypeError Sample.GOOGLE_TOKEN_URI
             Sample.GOOGLE_REVOKE_URI MiniJson.loads elements _
             (VList [VStr "token_uri"; VStr "revoke_uri"])).
    + vm_compute. reflexivity.
    + discriminate.
Defined.

Lemma single_missing_field_message_witness :
  sample_validate
    (VDict (<[TYPE_FIELD_NAME := VStr "authorized_user"]>
           (<[CLIENT_ID_FIELD_NAME := VStr "123"]>
              {[CLIENT_SECRET_FIELD_NAME := VStr "secret"]}))) =
  Raise (InvalidCredentialModelError
           "The following field(s) must be defined: refresh_token").
Proof.
  apply (single_missing_field_message elements (λ X, reflexivity (elements X))
           _ _REQUIRED_AUTHORIZED_USER_FIELDS "refresh_token").
  - right. split; reflexivity.
  - vm_compute. reflexivity.
Defined.

Lemma serialize_data_document_fields_witness :
  ∃ d : gmap string pyval,
    sample_serialize_data
      (Kwargs (Some RefTypeServiceAccount) (Some (VStr "123"))
              (Some (VStr "dummy@google.com")) None (Some (VStr "key"))
              (Some (VStr "ABCDEF")) None None None None) =
    Return (VDict d) ∧
    d !! PRIVATE_KEY_FIELD_NAME = Some (VStr "key") ∧
    dom d = _REQUIRED_SERVICE_ACCOUNT_FIELDS ∪ ∅.
Proof.
  set (kw := Kwargs (Some RefTypeServiceAccount) (Some (VStr "123"))
               (Some (VStr "dummy@google.com")) None (Some (VStr "key"))
               (Some (VStr "ABCDEF")) None None None None).
  exists (<[TYPE_FIELD_NAME := VStr "service_account"]>
         (<[CLIENT_ID_FIELD_NAME := VStr "123"]>
         (<[CLIENT_EMAIL_FIELD_NAME := VStr "dummy@google.com"]>
         (<[PRIVATE_KEY_ID_FIELD_NAME := VStr "ABCDEF"]>
            {[PRIVATE_KEY_FIELD_NAME := VStr "key"]})))).
  assert (Hd : sample_serialize_data kw =
               Return (VDict
                 (<[TYPE_FIELD_NAME := VStr "service_account"]>
                 (<[CLIENT_ID_FIELD_NAME := VStr "123"]>
                 (<[CLIENT_EMAIL_FIELD_NAME := VStr "dummy@google.com"]>
                 (<[PRIVATE_KEY_ID_FIELD_NAME := VStr "ABCDEF"]>
                    {[PRIVATE_KEY_FIELD_NAME := VStr "key"]})))))).
  { vm_compute. reflexivity. }
  split; [exact Hd|].
  destruct (serialize_data_document_fields Sample.GOOGLE_TOKEN_URI
              Sample.GOOGLE_REVOKE_URI elements kw _ Hd)
    as [_ [(_ & _ & _ & _ & Hpk & Hdom)|(Hty & _)]].
  - split; [exact Hpk|exact Hdom].
  - discriminate Hty.
Defined.

Lemma serialize_data_uri_arguments_witness :
  ∃ d : gmap string pyval,
    sample_serialize_data
      (Kwargs (Some RefTypeAuthorizedUser) (Some (VStr "123")) None
              (Some (VStr "secret")) None None
              (Some (VStr "alabalaportocala"))
              (Some VNone) (Some (VStr "dummy_revoke_uri"))
              (Some (VBool true))) =
    Return (VDict d) ∧
    d !! TOKEN_URI_FIELD_NAME = Some VNone ∧
    d !! REVOKE_URI_FIELD_NAME = Some (VStr "dummy_revoke_uri").
Proof.
  set (kw := Kwargs (Some RefTypeAuthorizedUser) (Some (VStr "123")) None
               (Some (VStr "secret")) None None
               (Some (VStr "alabalaportocala"))
               (Some VNone) (Some (VStr "dummy_revoke_uri"))
               (Some (VBool true))).
  exists (<[TOKEN_URI_FIELD_NAME := VNone]>
         (<[REVOKE_URI_FIELD_NAME := VStr "dummy_revoke_uri"]>
            authorized_user_sample)).
  assert (Hd : sample_serialize_data kw =
               Return (VDict
                 (<[TOKEN_URI_FIELD_NAME := VNone]>
                 (<[REVOKE_URI_FIELD_NAME := VStr "dummy_revoke_uri"]>
                    authorized_user_sample)))).
  { vm_compute. reflexivity. }
  split; [exact Hd|].
  apply (serialize_data_uri_arguments Sample.GOOGLE_TOKEN_URI
           Sample.GOOGLE_REVOKE_URI elements kw _ Hd).
  reflexivity.
Defined.

Lemma serialize_data_ignores_other_fields_witness :
  sample_serialize_data
    (Kwargs (Some RefTypeAuthorizedUser) (Some (VStr "123")) None
            (Some (VStr "secret")) None None
            (Some (VStr "alabalaportocala"))
            (Some (VStr "dummy_token_uri")) None None) =
  sample_serialize_data
    (Kwargs (Some RefTypeAuthorizedUser) (Some (VStr "123")) None
            (Some (VStr "secret")) None None
            (Some (VStr "alabalaportocala")) None None None).
Proof.
  apply (serialize_data_ignores_other_fields Sample.GOOGLE_TOKEN_URI
           Sample.GOOGLE_REVOKE_URI elements).
  reflexivity.
Defined.

Lemma loads_of_document_without_uris_witness :
  sample_loads
    (MiniJson.text
       "{'type': 'authorized_user', 'client_id': '123', 'client_secret': 'secret', 'refresh_token': 'alabalaportocala'}") =
  sample_serialize_data
    (Kwargs (Some RefTypeAuthorizedUser) (Some (VStr "123")) None
            (Some (VStr "secret")) None None
            (Some (VStr "alabalaportocala")) None None (Some (VBool true))).
Proof.
  apply (loads_of_document_without_uris Sample.GOOGLE_TOKEN_URI
           Sample.GOOGLE_REVOKE_URI MiniJson.loads elements
           (Kwargs (Some RefTypeAuthorizedUser) (Some (VStr "123")) None
                   (Some (VStr "secret")) None None
                   (Some (VStr "alabalaportocala")) None None None)
           authorized_user_sample).
  - vm_compute. reflexivity.
  - reflexivity.
  - vm_compute. reflexivity.
Defined.

End GoogleCredentialsJson.
